(** * WebChess: the game-session coordinator of [app.py]

    The coordinator owns one live board and one player name, and answers
    the requests of the page: the state, start, end (reset), the valid
    moves of a square, a player move, and the log.  The chess rules
    ([chess.Board], [chess.Move]) and the search engine are libraries
    outside the repository: the rules are an interface ([RulesEngine])
    the coordinator is generic in; the search engine and the host (clock,
    random generator, file system, platform) are inputs of each request
    ([World]).

    Each handler is a function from the request and the session to the
    answer and the session after it.  An exception that a handler lets
    escape is an answer of its own ([Raise]); the session next to it is
    the one the process is left with. *)

From Stdlib Require Import ZArith.
From stdpp Require Import gmap strings list fin_maps pretty.

Set Warnings "-register-all".
Set Default Proof Using "Type".

(** ** Python values

    The body of a request is a JSON object; [request.get_json()] turns it
    into a [dict] whose values are arbitrary JSON values. *)

(** A binary64 float: [m * 2^e], an infinity or a NaN. *)
Inductive pyfloat :=
| FFinite (m e : Z)
| FInf (negative : bool)
| FNan.

Inductive pyval :=
| PNone
| PBool (b : bool)
| PInt (z : Z)
| PFloat (f : pyfloat)
| PStr (s : string)
| PList (l : list pyval)
| PDict (d : list (string * pyval)).

Definition float_nonzero (f : pyfloat) : bool :=
  match f with
  | FFinite m _ => negb (m =? 0)%Z
  | FInf _ | FNan => true
  end.

(** [bool(v)], the test behind [not v]. *)
Definition truthy (v : pyval) : bool :=
  match v with
  | PNone => false
  | PBool b => b
  | PInt z => negb (z =? 0)%Z
  | PFloat f => float_nonzero f
  | PStr s => negb (String.eqb s "")
  | PList l => match l with [] => false | _ :: _ => true end
  | PDict d => match d with [] => false | _ :: _ => true end
  end.

(** Lists and dicts cannot be keys of a [dict]. *)
Definition hashable (v : pyval) : bool :=
  match v with
  | PList _ | PDict _ => false
  | _ => true
  end.

(** A [dict] with string keys, as a request body and as a [jsonify]
    payload. *)
Abbreviation dict := (gmap string pyval).

(** [d.get(k, dflt)] *)
Definition dict_get (d : dict) (k : string) (dflt : pyval) : pyval :=
  default dflt (d !! k).

(** ** Exceptions *)

Inductive pyexn := PyExn (cls msg : string).

(** [str(e)] *)
Definition exn_str (e : pyexn) : string :=
  match e with PyExn _ msg => msg end.

Inductive outcome (A : Type) :=
| Return (a : A)
| Raise (e : pyexn).
Arguments Return {A} a.
Arguments Raise {A} e.

Definition newline : string := String (Ascii.ascii_of_nat 10) "".

(** ** Text files

    A text is the string of its UTF-8 bytes. [open] is called without
    [newline], so a line feed is written as [os.linesep] (carriage
    return and line feed on Windows) and read back from either of them
    and from a lone carriage return. *)

Definition LF : Ascii.ascii := Ascii.ascii_of_nat 10.
Definition CR : Ascii.ascii := Ascii.ascii_of_nat 13.

(** What [f.write(text)] puts into the file. *)
Fixpoint write_newlines (windows : bool) (text : string) : string :=
  match text with
  | EmptyString => EmptyString
  | String c rest =>
      if Ascii.eqb c LF && windows
      then String CR (String LF (write_newlines windows rest))
      else String c (write_newlines windows rest)
  end.

(** What [f.read()] returns for the content of the file. *)
Fixpoint read_newlines (content : string) : string :=
  match content with
  | EmptyString => EmptyString
  | String c rest =>
      if Ascii.eqb c CR then
        match rest with
        | String c' rest' =>
            if Ascii.eqb c' LF then String LF (read_newlines rest')
            else String LF (read_newlines rest)
        | EmptyString => String LF EmptyString
        end
      else String c (read_newlines rest)
  end.

(** The first [n] bytes of a text. *)
Fixpoint first_bytes (n : nat) (text : string) : string :=
  match n, text with
  | S n', String c rest => String c (first_bytes n' rest)
  | _, _ => EmptyString
  end.

(** ** The libraries the coordinator calls *)

(** What [app.py] uses of [python-chess]. *)
Class RulesEngine := {
  Board : Type;
  Move : Type;
  #[global] Move_eq_dec :: EqDecision Move;
  (** [chess.Board()] *)
  initial_board : Board;
  (** [board.fen()] *)
  fen : Board → string;
  (** [board.turn == chess.WHITE] *)
  white_to_move : Board → bool;
  (** [list(board.legal_moves)] *)
  legal_moves : Board → list Move;
  (** [move in board.legal_moves], which is [board.is_legal(move)]: a
      test of its own, not a search of the list *)
  is_legal : Move → Board → bool;
  (** [board.push(move)] *)
  push : Move → Board → Board;
  (** [board.is_game_over()] *)
  is_game_over : Board → bool;
  (** [board.result()] *)
  result : Board → string;
  (** [chess.Move.from_uci(text)], which raises on what is not a move *)
  from_uci : pyval → outcome Move;
  (** [move.uci()] *)
  uci : Move → string;
  (** [move.from_square] *)
  from_square : Move → nat;
  (** [chess.parse_square(name)], which raises on what is not a square *)
  parse_square : string → outcome nat;
  (** The test accepts every move of the list. *)
  listed_is_legal : ∀ b m, m ∈ legal_moves b → is_legal m b = true;
  (** It accepts more spellings than the list holds (castling written as
      the king taking its rook, e1h1 for e1g1), but none that leads
      elsewhere: an accepted move is pushed as a move of the list. *)
  legal_pushes_listed :
    ∀ b m, is_legal m b = true →
           ∃ m', m' ∈ legal_moves b ∧ push m b = push m' b
}.

(** What the f-strings of [get_result_text] use of the interpreter:
    [str(v)], which is the text itself on a [str]. *)
Class PyRuntime := {
  py_str : pyval → string;
  py_str_text : ∀ s, py_str (PStr s) = s
}.

Section coordinator.
Context `{!RulesEngine, !PyRuntime}.

(** ** Global state: [board], [player_name], and the file at
    [RESULTS_PATH] ([None] while it does not exist). *)
Record Session := {
  board : Board;
  player_name : pyval;
  results_file : option string
}.

Definition set_board (b : Board) (s : Session) : Session :=
  {| board := b; player_name := player_name s;
     results_file := results_file s |}.

(** The state when the module is loaded. *)
Definition module_loaded (file : option string) : Session :=
  {| board := initial_board; player_name := PNone; results_file := file |}.

(** ** What a request reads from outside the program *)
Record World := {
  (** [str(datetime.datetime.now())] *)
  now : string;
  (** [os.name] *)
  os_name : string;
  (** [platform.system()] *)
  platform_system : string;
  (** [os.path.exists(engine_path)] *)
  engine_exists : bool;
  (** [popen_uci], [engine.play(board, Limit(time))], [result.move] and
      the closing of the engine, as one call that returns the move or
      raises *)
  engine_play : Board → pyfloat → outcome (option Move);
  (** the draw of the random generator *)
  random_draw : nat;
  (** whether [makedirs], [open(.., "a")] and [write] go through *)
  log_writable : bool;
  (** when they do not: how many bytes had reached the file that
      [open] had opened, and created if there was none; [None] when
      [makedirs] or [open] itself failed *)
  log_partial : option nat;
  (** what [open(.., "r")] and [read] raise, if they do *)
  log_read_error : option pyexn
}.

(** ** GET /get_state *)
Definition get_state (s : Session) : dict :=
  {[ "fen" := PStr (fen (board s));
     "turn" := PStr (if white_to_move (board s) then "white" else "black");
     "game_over" := PBool (is_game_over (board s));
     "player" := player_name s ]}.

(** ** POST /start *)
Definition start_game (data : dict) (s : Session) : dict * Session :=
  let s1 := set_board initial_board s in
  let s2 := {| board := board s1;
               player_name := dict_get data "player" (PStr "Guest");
               results_file := results_file s1 |} in
  ({[ "status" := PStr "started";
      "player" := player_name s2;
      "fen" := PStr (fen (board s2)) ]}, s2).

(** ** POST /end *)
Definition end_game (s : Session) : dict * Session :=
  let s1 := set_board initial_board s in
  ({[ "status" := PStr "reset"; "fen" := PStr (fen (board s1)) ]}, s1).

(** ** GET /valid_moves/<square> *)

(** The body of the [try]. *)
Definition valid_moves_try (square : string) (s : Session)
  : outcome dict :=
  match parse_square square with
  | Raise e => Raise e
  | Return sq =>
      let moves :=
        uci <$> filter (λ m, from_square m = sq) (legal_moves (board s)) in
      Return {[ "moves" := PList (PStr <$> moves) ]}
  end.

Definition valid_moves (square : string) (s : Session) : dict :=
  match valid_moves_try square s with
  | Return r => r
  | Raise _ => {[ "moves" := PList [] ]}
  end.

(** ** Move selection *)

Definition think_times : gmap string pyfloat :=
  {[ "easy" := FFinite 3602879701896397 (-55);
     "medium" := FFinite 1 (-1);
     "hard" := FFinite 3 (-1) ]}.

(** [think_times.get(level, 0.5)]: the key is hashed first. *)
Definition think_time_of (level : pyval) : outcome pyfloat :=
  match level with
  | PStr k => Return (default (FFinite 1 (-1)) (think_times !! k))
  | PList _ => Raise (PyExn "TypeError" "unhashable type: 'list'")
  | PDict _ => Raise (PyExn "TypeError" "unhashable type: 'dict'")
  | _ => Return (FFinite 1 (-1))
  end.

(** [random.choice(legal)]: the element at an index below
    [len(legal)]. *)
Definition random_choice (w : World) (legal : list Move) : option Move :=
  legal !! (random_draw w mod length legal).

(** [random.choice(legal) if legal else None] *)
Definition fallback_move (w : World) (b : Board) : option Move :=
  let legal := legal_moves b in
  match legal with
  | [] => None
  | _ :: _ => random_choice w legal
  end.

Definition get_ai_move (w : World) (level : pyval) (b : Board)
  : outcome (option Move) :=
  let is_windows := bool_decide (os_name w = "nt") in
  let on_render := bool_decide (platform_system w = "Linux") in
  match think_time_of level with
  | Raise e => Raise e
  | Return think_time =>
      if is_windows && negb on_render then
        if engine_exists w then
          match engine_play w b think_time with
          | Return mv => Return mv
          | Raise _ => Return (fallback_move w b)
          end
        else Return (fallback_move w b)
      else Return (fallback_move w b)
  end.

(** ** The result text and the log *)

Definition result_status (res : string) : string :=
  if String.eqb res "1-0" then "White wins"
  else if String.eqb res "0-1" then "Black wins"
  else "Draw".

Definition get_result_text (w : World) (player difficulty : pyval)
    (s : Session) : string :=
  let res := result (board s) in
  let status := result_status res in
  "Game ended at " +:+ now w +:+ newline
  +:+ "Player: " +:+ py_str player +:+ newline
  +:+ "Difficulty: " +:+ py_str difficulty +:+ newline
  +:+ "Result: " +:+ status +:+ " (" +:+ res +:+ ")" +:+ newline
  +:+ "Final FEN: " +:+ fen (board s) +:+ newline
  +:+ "--------------------------------------------------" +:+ newline.

(** The bytes of a text on the disk of the host. *)
Definition disk_text (w : World) (text : string) : string :=
  write_newlines (bool_decide (os_name w = "nt")) text.

(** What an append of [text] leaves of it in the file: all of it, or
    what a failing write got through. *)
Definition log_written (w : World) (text : string) : option string :=
  if log_writable w then Some (disk_text w text)
  else (λ n, first_bytes n (disk_text w text)) <$> log_partial w.

(** Appends to the file, creating it; a failure is printed and
    dropped, with the file as the failure left it. *)
Definition log_result (w : World) (text : string) (s : Session) : Session :=
  match log_written w text with
  | Some written =>
      {| board := board s; player_name := player_name s;
         results_file := Some (default "" (results_file s) +:+ written) |}
  | None => s
  end.

(** ** GET /logs *)
Definition get_logs (w : World) (s : Session) : string :=
  match results_file s with
  | None => "No games yet."
  | Some text =>
      match log_read_error w with
      | None => read_newlines text
      | Some e => "Error reading log: " +:+ exn_str e
      end
  end.

(** ** POST /player_move *)

Definition finished (w : World) (player difficulty : pyval) (s : Session)
  : outcome dict * Session :=
  let result_text := get_result_text w player difficulty s in
  let s' := log_result w result_text s in
  (Return {[ "status" := PStr "finished";
             "result" := PStr result_text;
             "fen" := PStr (fen (board s')) ]}, s').

Definition player_move (w : World) (data : dict) (s : Session)
  : outcome dict * Session :=
  let move_uci := dict_get data "move" PNone in
  let difficulty := dict_get data "difficulty" (PStr "medium") in
  let player := dict_get data "player" (PStr "Guest") in
  if negb (truthy move_uci) then
    (Return {[ "status" := PStr "error";
               "message" := PStr "Missing move";
               "fen" := PStr (fen (board s)) ]}, s)
  else
    match from_uci move_uci with
    | Raise e =>
        (Return {[ "status" := PStr "error";
                   "message" := PStr (exn_str e);
                   "fen" := PStr (fen (board s)) ]}, s)
    | Return move =>
        if negb (is_legal move (board s)) then
          (Return {[ "status" := PStr "illegal";
                     "fen" := PStr (fen (board s)) ]}, s)
        else
          let s1 := set_board (push move (board s)) s in
          if is_game_over (board s1) then finished w player difficulty s1
          else
            match get_ai_move w difficulty (board s1) with
            | Raise e => (Raise e, s1)
            | Return None =>
                (Return {[ "status" := PStr "ok";
                           "ai" := PNone;
                           "fen" := PStr (fen (board s1)) ]}, s1)
            | Return (Some ai_move) =>
                let s2 := set_board (push ai_move (board s1)) s1 in
                if is_game_over (board s2) then
                  finished w player difficulty s2
                else
                  (Return {[ "status" := PStr "ok";
                             "ai" := PStr (uci ai_move);
                             "fen" := PStr (fen (board s2)) ]}, s2)
            end
    end.

(** ** Sessions a client can bring about *)

(** One request that writes the state. *)
Inductive step (s : Session) : Session → Prop :=
| step_start data : step s (start_game data s).2
| step_end : step s (end_game s).2
| step_move w data : step s (player_move w data s).2.

Inductive reachable : Session → Prop :=
| reachable_loaded file : reachable (module_loaded file)
| reachable_step s s' : reachable s → step s s' → reachable s'.

(** ** Notions the properties are stated with *)

(** The primary engine gives no move: the host is not the Windows machine,
    the executable is missing, or starting, playing or closing raises. *)
Inductive primary_fails (w : World) (b : Board) (level : pyval) : Prop :=
| not_windows : os_name w ≠ "nt" → primary_fails w b level
| on_linux : platform_system w = "Linux" → primary_fails w b level
| engine_missing : engine_exists w = false → primary_fails w b level
| engine_raises t e :
    think_time_of level = Return t →
    engine_play w b t = Raise e →
    primary_fails w b level.

(** The same request with another draw of the random generator. *)
Definition with_draw (i : nat) (w : World) : World :=
  {| now := now w; os_name := os_name w;
     platform_system := platform_system w;
     engine_exists := engine_exists w; engine_play := engine_play w;
     random_draw := i; log_writable := log_writable w;
     log_partial := log_partial w;
     log_read_error := log_read_error w |}.

(** A log record by its fields: timestamp, player, difficulty, outcome
    label with the result code, final position, and the separator. *)
Definition log_record
    (timestamp player difficulty label code position : string) : string :=
  foldr (λ line rest, line +:+ newline +:+ rest) ""
    [ "Game ended at " +:+ timestamp;
      "Player: " +:+ player;
      "Difficulty: " +:+ difficulty;
      "Result: " +:+ label +:+ " (" +:+ code +:+ ")";
      "Final FEN: " +:+ position;
      "--------------------------------------------------" ].

(** The same request on a host where the log can, or cannot, be
    written. *)
Definition with_log_writable (ok : bool) (w : World) : World :=
  {| now := now w; os_name := os_name w;
     platform_system := platform_system w;
     engine_exists := engine_exists w; engine_play := engine_play w;
     random_draw := random_draw w; log_writable := ok;
     log_partial := log_partial w;
     log_read_error := log_read_error w |}.

(** The ways through [player_move], one constructor for each [return] of
    the handler and one for the exception that [get_ai_move] lets
    escape. *)
Inductive move_run (w : World) (data : dict) (s : Session)
  : outcome dict * Session → Prop :=
| run_missing :
    truthy (dict_get data "move" PNone) = false →
    move_run w data s
      (Return {[ "status" := PStr "error";
                 "message" := PStr "Missing move";
                 "fen" := PStr (fen (board s)) ]}, s)
| run_unparseable e :
    truthy (dict_get data "move" PNone) = true →
    from_uci (dict_get data "move" PNone) = Raise e →
    move_run w data s
      (Return {[ "status" := PStr "error";
                 "message" := PStr (exn_str e);
                 "fen" := PStr (fen (board s)) ]}, s)
| run_illegal m :
    truthy (dict_get data "move" PNone) = true →
    from_uci (dict_get data "move" PNone) = Return m →
    is_legal m (board s) = false →
    move_run w data s
      (Return {[ "status" := PStr "illegal";
                 "fen" := PStr (fen (board s)) ]}, s)
| run_player_ends m :
    truthy (dict_get data "move" PNone) = true →
    from_uci (dict_get data "move" PNone) = Return m →
    is_legal m (board s) = true →
    is_game_over (push m (board s)) = true →
    move_run w data s
      (finished w (dict_get data "player" (PStr "Guest"))
         (dict_get data "difficulty" (PStr "medium"))
         (set_board (push m (board s)) s))
| run_raises m e :
    truthy (dict_get data "move" PNone) = true →
    from_uci (dict_get data "move" PNone) = Return m →
    is_legal m (board s) = true →
    is_game_over (push m (board s)) = false →
    get_ai_move w (dict_get data "difficulty" (PStr "medium"))
      (push m (board s)) = Raise e →
    move_run w data s (Raise e, set_board (push m (board s)) s)
| run_no_reply m :
    truthy (dict_get data "move" PNone) = true →
    from_uci (dict_get data "move" PNone) = Return m →
    is_legal m (board s) = true →
    is_game_over (push m (board s)) = false →
    get_ai_move w (dict_get data "difficulty" (PStr "medium"))
      (push m (board s)) = Return None →
    move_run w data s
      (Return {[ "status" := PStr "ok";
                 "ai" := PNone;
                 "fen" := PStr (fen (push m (board s))) ]},
       set_board (push m (board s)) s)
| run_reply_ends m reply :
    truthy (dict_get data "move" PNone) = true →
    from_uci (dict_get data "move" PNone) = Return m →
    is_legal m (board s) = true →
    is_game_over (push m (board s)) = false →
    get_ai_move w (dict_get data "difficulty" (PStr "medium"))
      (push m (board s)) = Return (Some reply) →
    is_game_over (push reply (push m (board s))) = true →
    move_run w data s
      (finished w (dict_get data "player" (PStr "Guest"))
         (dict_get data "difficulty" (PStr "medium"))
         (set_board (push reply (push m (board s)))
            (set_board (push m (board s)) s)))
| run_reply m reply :
    truthy (dict_get data "move" PNone) = true →
    from_uci (dict_get data "move" PNone) = Return m →
    is_legal m (board s) = true →
    is_game_over (push m (board s)) = false →
    get_ai_move w (dict_get data "difficulty" (PStr "medium"))
      (push m (board s)) = Return (Some reply) →
    is_game_over (push reply (push m (board s))) = false →
    move_run w data s
      (Return {[ "status" := PStr "ok";
                 "ai" := PStr (uci reply);
                 "fen" := PStr (fen (push reply (push m (board s)))) ]},
       set_board (push reply (push m (board s)))
         (set_board (push m (board s)) s)).

(** A submitted move ends the game: the game is over after it, or it is
    not, [get_ai_move] returns a reply and the game is over after the
    reply. [final] is the board then. *)
Definition ends_game (w : World) (difficulty : pyval) (b : Board)
    (m : Move) (final : Board) : Prop :=
  (is_game_over (push m b) = true ∧ final = push m b)
  ∨ (is_game_over (push m b) = false
     ∧ ∃ reply, get_ai_move w difficulty (push m b) = Return (Some reply)
                ∧ is_game_over (push reply (push m b)) = true
                ∧ final = push reply (push m b)).

(** The engine answers with legal moves only. *)
Definition engine_sound (w : World) : Prop :=
  ∀ b t reply, engine_play w b t = Return (Some reply) →
               reply ∈ legal_moves b.

(** The positions that legal moves lead to from the initial one. *)
Inductive played : Board → Prop :=
| played_initial : played initial_board
| played_push b m : played b → m ∈ legal_moves b → played (push m b).

(** One request that writes the state and is no start. *)
Inductive quiet_step (s : Session) : Session → Prop :=
| quiet_end : quiet_step s (end_game s).2
| quiet_move w data : quiet_step s (player_move w data s).2.

(** One request that writes the state, its engine answering with legal
    moves. *)
Inductive sound_step (s : Session) : Session → Prop :=
| sound_start data : sound_step s (start_game data s).2
| sound_end : sound_step s (end_game s).2
| sound_move w data :
    engine_sound w → sound_step s (player_move w data s).2.

End coordinator.

(** ** A rules engine small enough to run

    A take-away game behind the interface of the chess library: a move
    takes one, two or three counters from a pile, the side that cannot
    move has lost, and after four plies the game is drawn by move count.

    It has the two kinds of ending the chess library has.  There
    [is_game_over()] is true at checkmate and stalemate, where
    [legal_moves] is empty, and also on insufficient material, the
    seventy-five-move rule and fivefold repetition, which [legal_moves]
    does not look at: after 1. Nf3 Nf6 2. Ng1 Ng8 played four times the
    starting position stands for the fifth time, the game is over, and
    all twenty first moves are legal.  Here the empty pile is the ending
    without a legal move and the move count the ending with legal moves
    left. *)

Record pile := { counters : nat; white : bool; plies : nat }.

Inductive removal := Take1 | Take2 | Take3.

#[global] Instance removal_eq_dec : EqDecision removal.
Proof. solve_decision. Defined.

Definition taken (m : removal) : nat :=
  match m with Take1 => 1 | Take2 => 2 | Take3 => 3 end.

Definition pile_start : pile := {| counters := 5; white := true; plies := 0 |}.

Definition pile_fen (b : pile) : string :=
  pretty (counters b) +:+ (if white b then " w " else " b ")
  +:+ pretty (plies b).

Definition pile_moves (b : pile) : list removal :=
  filter (λ m, taken m ≤ counters b) [Take1; Take2; Take3].

Definition pile_push (m : removal) (b : pile) : pile :=
  {| counters := counters b - taken m; white := negb (white b);
     plies := S (plies b) |}.

Definition pile_over (b : pile) : bool :=
  (counters b =? 0) || (4 <=? plies b).

Definition pile_result (b : pile) : string :=
  if counters b =? 0 then (if white b then "0-1" else "1-0")
  else if 4 <=? plies b then "1/2-1/2"
  else "*".

Definition removal_of_uci (v : pyval) : outcome removal :=
  match v with
  | PStr s =>
      if String.eqb s "t1" then Return Take1
      else if String.eqb s "t2" then Return Take2
      else if String.eqb s "t3" then Return Take3
      else Raise (PyExn "InvalidMoveError" ("invalid uci: " +:+ s))
  | _ => Raise (PyExn "TypeError" "expected a str")
  end.

Definition removal_uci (m : removal) : string :=
  match m with Take1 => "t1" | Take2 => "t2" | Take3 => "t3" end.

Definition pile_square (name : string) : outcome nat :=
  if String.eqb name "a1" then Return 0
  else if String.eqb name "b1" then Return 1
  else if String.eqb name "c1" then Return 2
  else Raise (PyExn "ValueError" ("invalid square: " +:+ name)).

(** The game has one spelling for each move, so the test of a move is
    the search of the list. *)
Definition pile_engine : RulesEngine :=
  {| Board := pile; Move := removal; initial_board := pile_start;
     fen := pile_fen; white_to_move := white; legal_moves := pile_moves;
     is_legal := λ m b, bool_decide (m ∈ pile_moves b);
     push := pile_push; is_game_over := pile_over; result := pile_result;
     from_uci := removal_of_uci; uci := removal_uci;
     from_square := λ m, taken m - 1; parse_square := pile_square;
     listed_is_legal := λ b m Hm, bool_decide_eq_true_2 _ Hm;
     legal_pushes_listed := λ b m Hm,
       ex_intro _ m (conj (bool_decide_eq_true_1 _ Hm) eq_refl) |}.

(** [str] on the scalars; the examples format nothing else. *)
Definition scalar_str (v : pyval) : string :=
  match v with
  | PStr s => s
  | PNone => "None"
  | PBool true => "True"
  | PBool false => "False"
  | PInt z => pretty z
  | PFloat _ => "<float>"
  | PList _ => "<list>"
  | PDict _ => "<dict>"
  end.

Definition scalar_runtime : PyRuntime :=
  {| py_str := scalar_str; py_str_text := λ s, eq_refl |}.

(** A request on a Linux host, where the fallback chooses. *)
Definition linux_host (draw : nat) : @World pile_engine :=
  {| now := "2024-01-01 12:00:00.000000"; os_name := "posix";
     platform_system := "Linux"; engine_exists := false;
     engine_play := λ _ _, Raise (PyExn "EngineError" "no engine");
     random_draw := draw; log_writable := true; log_partial := None;
     log_read_error := None |}.

(** A request on the Windows machine, where the engine is in place and
    answers with the first legal move. *)
Definition first_move (b : pile) (budget : pyfloat)
  : outcome (option removal) :=
  Return (head (pile_moves b)).

Definition windows_host : @World pile_engine :=
  @Build_World pile_engine "2024-01-01 12:00:00.000000" "nt" "Windows"
    true first_move 2 true None None.

(** Sessions of the small engine that the examples start from. *)
Section sessions.
#[local] Existing Instances pile_engine scalar_runtime.

(** The answer of a request that raised nothing. *)
Definition answer (o : outcome dict) : dict :=
  match o with Return r => r | Raise _ => ∅ end.

(** The process as loaded, then a start by Alice. *)
Definition loaded : Session := module_loaded None.
Definition alice : Session :=
  (start_game {[ "player" := PStr "Alice" ]} loaded).2.

(** Alice takes one counter of the five and the reply takes one. *)
Definition midgame : Session :=
  (player_move (linux_host 0) {[ "move" := PStr "t1" ]} alice).2.

(** The same again: drawn by move count with one counter, and one legal
    move, left. *)
Definition drawn : Session :=
  (player_move (linux_host 0) {[ "move" := PStr "t1" ]} midgame).2.

(** Or Alice takes the three counters left: the side to move has no
    move. *)
Definition won : Session :=
  (player_move (linux_host 0) {[ "move" := PStr "t3" ]} midgame).2.

End sessions.

(** * Properties of the coordinator *)

Section properties.
Context `{!RulesEngine, !PyRuntime}.

Lemma append_cons ch (a b : string) : String ch a +:+ b = String ch (a +:+ b).
Proof. reflexivity. Qed.

Lemma append_nil_r (a : string) : a +:+ "" = a.
Proof. induction a as [|ch a IH]; [done | by rewrite append_cons, IH]. Qed.

Lemma append_assoc (a b c : string) : (a +:+ b) +:+ c = a +:+ b +:+ c.
Proof.
  induction a as [|ch a IH]; [done | by rewrite !append_cons, IH].
Qed.

(** The record written by [get_result_text], field by field. *)
Lemma get_result_text_record w player difficulty s :
  get_result_text w player difficulty s =
  log_record (now w) (py_str player) (py_str difficulty)
    (result_status (result (board s))) (result (board s)) (fen (board s)).
Proof.
  unfold get_result_text, log_record. simpl.
  by rewrite !append_assoc, append_nil_r.
Qed.

Lemma dict_get_present (d : dict) k dflt v :
  d !! k = Some v → dict_get d k dflt = v.
Proof. unfold dict_get. by intros ->. Qed.

Lemma dict_get_absent (d : dict) k dflt :
  d !! k = None → dict_get d k dflt = dflt.
Proof. unfold dict_get. by intros ->. Qed.

(** ** Rejected submissions *)

(** Every request takes one of the ways of [move_run]. *)
Lemma player_move_run w (data : dict) s :
  move_run w data s (player_move w data s).
Proof.
  unfold player_move.
  destruct (truthy (dict_get data "move" PNone)) eqn:Htruthy; simpl;
    [|by apply run_missing].
  destruct (from_uci (dict_get data "move" PNone)) as [m|e] eqn:Hparse;
    [|by apply run_unparseable].
  destruct (is_legal m (board s)) eqn:Hlegal; simpl;
    [|by eapply run_illegal].
  destruct (is_game_over (push m (board s))) eqn:Hover;
    [by eapply run_player_ends|].
  destruct (get_ai_move _ _ _) as [[reply|]|e] eqn:Hreply.
  - destruct (is_game_over (push reply _)) eqn:Hover2.
    + by eapply run_reply_ends.
    + by eapply run_reply.
  - by eapply run_no_reply.
  - by eapply run_raises.
Qed.


(** C1. A submitted move that is well formed (a non-empty value that
    [from_uci] parses) and is not in the legal-move set of the current
    position, by the handler's own test [move in board.legal_moves],
    gets the "illegal" status with the current position string, and the
    whole session (board, player name and results file) is what it was:
    no move is applied and no log record is written. Such a move is in
    particular none of the listed legal moves. *)
Theorem player_move_illegal w (data : dict) s v m :
  data !! "move" = Some v →
  truthy v = true →
  from_uci v = Return m →
  is_legal m (board s) = false →
  player_move w data s =
    (Return {[ "status" := PStr "illegal";
               "fen" := PStr (fen (board s)) ]}, s)
  ∧ m ∉ legal_moves (board s).
Proof.
  intros Hmove Htruthy Hparse Hillegal. split.
  - unfold player_move.
    by rewrite (dict_get_present _ _ _ _ Hmove), Htruthy, Hparse, Hillegal.
  - intros Hlisted%listed_is_legal. congruence.
Qed.

(** C10. A request whose move field is the empty string is answered as a
    missing move: the error status with the "Missing move" message and
    the current position string, the session unchanged; the move text is
    never handed to the parser, whatever the parser would make of it. *)
Theorem player_move_empty_text w (data : dict) s :
  data !! "move" = Some (PStr "") →
  player_move w data s =
    (Return {[ "status" := PStr "error";
               "message" := PStr "Missing move";
               "fen" := PStr (fen (board s)) ]}, s).
Proof.
  intros Hmove. unfold player_move.
  by rewrite (dict_get_present _ _ _ _ Hmove).
Qed.

(** With an empty list of legal moves the test accepts nothing. *)
Lemma no_move_is_legal b m : legal_moves b = [] → is_legal m b = false.
Proof.
  intros Hnone. destruct (is_legal m b) eqn:Hlegal; [|done].
  destruct (legal_pushes_listed b m Hlegal) as (m' & Hm' & _).
  rewrite Hnone in Hm'. by apply elem_of_nil in Hm'.
Qed.

(** C2, as amended. In a session whose current position has no legal move
    (at chess: checkmate or stalemate) a submission never changes the
    session: whatever is submitted is answered with the error status (a
    missing or unparseable move) or the illegal status, and with the
    current position string. From there only start and end change the
    board, to the initial position. *)
Theorem player_move_no_legal_move w (data data' : dict) s :
  legal_moves (board s) = [] →
  (player_move w data s).2 = s
  ∧ (∃ r, (player_move w data s).1 = Return r
        ∧ r !! "fen" = Some (PStr (fen (board s)))
        ∧ (r !! "status" = Some (PStr "error")
           ∨ r !! "status" = Some (PStr "illegal")))
  ∧ board (start_game data' s).2 = initial_board
  ∧ board (end_game s).2 = initial_board.
Proof.
  intros Hnone. unfold player_move.
  split_and!; [| |done..].
  - destruct (truthy _); [|done]. simpl.
    destruct (from_uci _) as [m|e]; [|done].
    by rewrite (no_move_is_legal _ m Hnone).
  - destruct (truthy _); simpl; [|eexists; split_and!; eauto].
    destruct (from_uci _) as [m|e]; [|eexists; split_and!; eauto].
    rewrite (no_move_is_legal _ m Hnone).
    eexists; split_and!; eauto.
Qed.

(** A legal move, in contrast, is applied whether or not the position is
    terminal: the handler never asks [is_game_over] before it pushes.
    The board after the request is the board with the move, or with the
    move and a reply. *)
Lemma player_move_legal_applied w (data : dict) s v m :
  data !! "move" = Some v →
  truthy v = true →
  from_uci v = Return m →
  m ∈ legal_moves (board s) →
  board (player_move w data s).2 = push m (board s)
  ∨ ∃ reply, board (player_move w data s).2 = push reply (push m (board s)).
Proof.
  intros Hmove Htruthy Hparse Hlegal. unfold player_move.
  rewrite (dict_get_present _ _ _ _ Hmove), Htruthy, Hparse. simpl.
  rewrite (listed_is_legal _ _ Hlegal). simpl.
  unfold finished, log_result.
  destruct (is_game_over (push m (board s)));
    [destruct (log_written w _); by left|].
  destruct (get_ai_move _ _ _) as [[reply|]|e]; [|by left..].
  right. exists reply.
  destruct (is_game_over _); [by destruct (log_written w _)|done].
Qed.

(** ** Start and end *)

(** C5, as amended. A start resets the board to the initial position,
    answers with the initial position string, and sets the player name
    to the value of the request's player field, whatever it is (an empty
    name is stored as given); the name is "Guest" only when the field is
    absent. The results file is not touched. *)
Theorem start_game_sets_session (data : dict) s :
  board (start_game data s).2 = initial_board
  ∧ (start_game data s).1 !! "status" = Some (PStr "started")
  ∧ (start_game data s).1 !! "fen" = Some (PStr (fen initial_board))
  ∧ (start_game data s).1 !! "player"
    = Some (player_name (start_game data s).2)
  ∧ (∀ v, data !! "player" = Some v →
          player_name (start_game data s).2 = v)
  ∧ (data !! "player" = None →
     player_name (start_game data s).2 = PStr "Guest")
  ∧ results_file (start_game data s).2 = results_file s.
Proof.
  unfold start_game, dict_get. simpl. split_and!; try done.
  - by intros v ->.
  - by intros ->.
Qed.

(** C3, as amended. An end resets the board exactly as a start does (the
    initial position, returned as the position string) and needs no
    name, but it leaves the player name as it was: the name is neither
    cleared nor set to "Guest". The results file is not touched. *)
Theorem end_game_resets_board_only (data : dict) s :
  board (end_game s).2 = initial_board
  ∧ board (end_game s).2 = board (start_game data s).2
  ∧ (end_game s).1 !! "fen" = (start_game data s).1 !! "fen"
  ∧ (end_game s).1 !! "status" = Some (PStr "reset")
  ∧ player_name (end_game s).2 = player_name s
  ∧ results_file (end_game s).2 = results_file s.
Proof. done. Qed.

(** C6. Whatever the session was, a start and an end leave the board at
    the initial position and answer with the initial position string;
    their answers do not depend on the prior session, and doing either
    twice is the same as doing it once. *)
Theorem start_end_initial_position (data : dict) s s0 :
  (start_game data s).1 !! "fen" = Some (PStr (fen initial_board))
  ∧ (end_game s).1 !! "fen" = Some (PStr (fen initial_board))
  ∧ board (start_game data s).2 = initial_board
  ∧ board (end_game s).2 = initial_board
  ∧ (start_game data s).1 = (start_game data s0).1
  ∧ (end_game s).1 = (end_game s0).1
  ∧ start_game data (start_game data s).2 = start_game data s
  ∧ end_game (end_game s).2 = end_game s.
Proof. done. Qed.

(** ** The log record *)

(** C8. The outcome label of the record follows the result code of the
    rules engine: "1-0" gives "White wins", "0-1" gives "Black wins", any
    other code gives "Draw"; the record holds the label followed by the
    code itself in brackets. *)
Theorem result_text_outcome_label w player difficulty s :
  (result (board s) = "1-0" →
   get_result_text w player difficulty s =
   log_record (now w) (py_str player) (py_str difficulty)
     "White wins" "1-0" (fen (board s)))
  ∧ (result (board s) = "0-1" →
     get_result_text w player difficulty s =
     log_record (now w) (py_str player) (py_str difficulty)
       "Black wins" "0-1" (fen (board s)))
  ∧ (result (board s) ≠ "1-0" → result (board s) ≠ "0-1" →
     get_result_text w player difficulty s =
     log_record (now w) (py_str player) (py_str difficulty)
       "Draw" (result (board s)) (fen (board s))).
Proof.
  rewrite get_result_text_record. unfold result_status. split_and!.
  - by intros ->.
  - by intros ->.
  - intros Hwhite Hblack.
    apply String.eqb_neq in Hwhite, Hblack. by rewrite Hwhite, Hblack.
Qed.

Lemma finished_record w player difficulty s :
  let text := get_result_text w player difficulty s in
  finished w player difficulty s
  = (Return {[ "status" := PStr "finished";
               "result" := PStr text;
               "fen" := PStr (fen (board s)) ]},
     log_result w text s)
  ∧ board (log_result w text s) = board s
  ∧ player_name (log_result w text s) = player_name s.
Proof.
  unfold finished, log_result. simpl.
  by destruct (log_written w _).
Qed.

Lemma write_newlines_posix text : write_newlines false text = text.
Proof.
  induction text as [|c text IH]; [done|]. simpl.
  by rewrite andb_false_r, IH.
Qed.

(** What a record leaves in the file: all of it where the file can be
    written, as it is on a host that is not Windows; else nothing, or
    its first bytes. *)
Lemma log_result_file w text s :
  (log_writable w = true →
   results_file (log_result w text s)
   = Some (default "" (results_file s) +:+ disk_text w text))
  ∧ (os_name w ≠ "nt" → disk_text w text = text)
  ∧ (log_writable w = false →
     results_file (log_result w text s) = results_file s
     ∨ ∃ n, results_file (log_result w text s)
            = Some (default "" (results_file s)
                    +:+ first_bytes n (disk_text w text))).
Proof.
  unfold log_result, log_written, disk_text. split_and!.
  - by intros ->.
  - intros Hos. rewrite bool_decide_eq_false_2 by done.
    apply write_newlines_posix.
  - intros ->. destruct (log_partial w) as [n|]; simpl; [|by left].
    right. by exists n.
Qed.

(** C4, as amended. A submission that ends the game, because the game is
    over after the player's accepted move or after the reply to it, is
    answered "finished" with the record as the result text, and the
    record is appended to the results file where the file can be
    written. The record carries the player and the difficulty of that
    very request ("Guest" and "medium" when the request has none), not
    the player name the session got at the start, which a submission
    neither reads nor changes. Its fields stand in the order timestamp,
    player, difficulty, outcome, final position. Conversely a "finished"
    answer is given only to such a submission. *)
Theorem player_move_finished_record w (data : dict) s :
  let player := dict_get data "player" (PStr "Guest") in
  let difficulty := dict_get data "difficulty" (PStr "medium") in
  let record final :=
    log_record (now w) (py_str player) (py_str difficulty)
      (result_status (result final)) (result final) (fen final) in
  (∀ v m final,
      data !! "move" = Some v →
      truthy v = true →
      from_uci v = Return m →
      is_legal m (board s) = true →
      ends_game w difficulty (board s) m final →
      ∃ s', player_move w data s
            = (Return {[ "status" := PStr "finished";
                         "result" := PStr (record final);
                         "fen" := PStr (fen final) ]}, s')
            ∧ board s' = final
            ∧ player_name s' = player_name s
            ∧ (log_writable w = true →
               results_file s'
               = Some (default "" (results_file s)
                       +:+ disk_text w (record final)))
            ∧ (log_writable w = false →
               results_file s' = results_file s
               ∨ ∃ n, results_file s'
                      = Some (default "" (results_file s)
                              +:+ first_bytes n
                                    (disk_text w (record final)))))
  ∧ (∀ r s',
        player_move w data s = (Return r, s') →
        r !! "status" = Some (PStr "finished") →
        ∃ v m, data !! "move" = Some v
               ∧ truthy v = true
               ∧ from_uci v = Return m
               ∧ is_legal m (board s) = true
               ∧ ends_game w difficulty (board s) m (board s'))
  ∧ (∀ text, os_name w ≠ "nt" → disk_text w text = text)
  ∧ (∀ name, data !! "player" = Some (PStr name) → py_str player = name)
  ∧ (data !! "player" = None → py_str player = "Guest").
Proof.
  intros player difficulty record.
  assert (∀ s1 : Session,
            player_name s1 = player_name s →
            results_file s1 = results_file s →
            ∃ s', finished w player difficulty s1
                  = (Return {[ "status" := PStr "finished";
                               "result" := PStr (record (board s1));
                               "fen" := PStr (fen (board s1)) ]}, s')
                  ∧ board s' = board s1
                  ∧ player_name s' = player_name s
                  ∧ (log_writable w = true →
                     results_file s'
                     = Some (default "" (results_file s)
                             +:+ disk_text w (record (board s1))))
                  ∧ (log_writable w = false →
                     results_file s' = results_file s
                     ∨ ∃ n, results_file s'
                            = Some (default "" (results_file s)
                                    +:+ first_bytes n
                                          (disk_text w (record (board s1))))))
    as Hfinished.
  { intros s1 Hname Hfile.
    pose proof (finished_record w player difficulty s1) as Hfin.
    cbv zeta in Hfin. rewrite get_result_text_record in Hfin.
    fold (record (board s1)) in Hfin. destruct Hfin as (-> & Hb & Hn).
    eexists. split; [done|]. rewrite Hb, Hn, <-Hname, <-Hfile.
    split_and!; [done..| |];
      by apply (log_result_file w (record (board s1)) s1). }
  split_and!.
  - intros v m final Hmove Htruthy Hparse Hlegal Hends.
    unfold player_move. fold player difficulty.
    rewrite (dict_get_present _ _ _ _ Hmove), Htruthy, Hparse, Hlegal.
    simpl.
    destruct Hends as [[Hover ->]|(Hgo & reply & Hreply & Hover & ->)].
    + rewrite Hover. by apply (Hfinished (set_board (push m (board s)) s)).
    + rewrite Hgo, Hreply. simpl. rewrite Hover.
      by apply (Hfinished (set_board (push reply (push m (board s)))
                             (set_board (push m (board s)) s))).
  - intros r s' Hrun Hstatus.
    destruct (player_move_run w data s)
      as [?|e ? ?|m ? ? ?|m Htruthy Hparse Hm Hend|m e ? ? Hm ? ?
          |m ? ? Hm Hend ?|m reply Htruthy Hparse Hm Hgo Hreply Hend
          |m reply ? ? Hm ? Hreply Hend];
      try (by simplify_eq).
    + destruct (finished_record w player difficulty
                  (set_board (push m (board s)) s)) as (Hfin & Hb & _).
      fold player difficulty in Hrun. rewrite Hfin in Hrun.
      injection Hrun as _ <-. rewrite Hb.
      destruct (data !! "move") as [v|] eqn:Hmove;
        [|by rewrite (dict_get_absent _ _ _ Hmove) in Htruthy].
      rewrite (dict_get_present _ _ _ _ Hmove) in Htruthy, Hparse.
      exists v, m. split_and!; [done..|]. by left.
    + destruct (finished_record w player difficulty
                  (set_board (push reply (push m (board s)))
                     (set_board (push m (board s)) s)))
        as (Hfin & Hb & _).
      fold player difficulty in Hrun. rewrite Hfin in Hrun.
      injection Hrun as _ <-. rewrite Hb.
      destruct (data !! "move") as [v|] eqn:Hmove;
        [|by rewrite (dict_get_absent _ _ _ Hmove) in Htruthy].
      rewrite (dict_get_present _ _ _ _ Hmove) in Htruthy, Hparse.
      exists v, m. split_and!; [done..|]. right. split; [done|].
      by exists reply.
  - intros text Hos. by apply (log_result_file w text s).
  - intros name Hname. subst player. unfold dict_get. rewrite Hname.
    apply py_str_text.
  - intros Hname. subst player. unfold dict_get. rewrite Hname.
    apply py_str_text.
Qed.

(** ** Valid moves of a square *)

(** C9. For every square text the answer is a list of moves and nothing
    is raised: the list holds exactly the notations of the legal moves of
    the current position that start on the parsed square; it is empty
    when the text is no square (the parser raises) and when no legal move
    starts on the square. *)
Theorem valid_moves_of_square square s :
  ∃ moves : list string,
    valid_moves square s = {[ "moves" := PList (PStr <$> moves) ]}
    ∧ (∀ u, u ∈ moves ↔
            ∃ sq m, parse_square square = Return sq
                    ∧ m ∈ legal_moves (board s)
                    ∧ from_square m = sq
                    ∧ uci m = u)
    ∧ (∀ e, parse_square square = Raise e → moves = [])
    ∧ (∀ sq, parse_square square = Return sq →
             (∀ m, m ∈ legal_moves (board s) → from_square m ≠ sq) →
             moves = []).
Proof.
  unfold valid_moves, valid_moves_try.
  destruct (parse_square square) as [sq|e].
  - eexists. split; [done|]. split_and!.
    + intros u. rewrite list_elem_of_fmap. split.
      * intros (m & -> & [Hsq Hm]%list_elem_of_filter). by exists sq, m.
      * intros (sq' & m & [= <-] & Hm & Hsq & <-).
        exists m. by rewrite list_elem_of_filter.
    + done.
    + intros sq' [= <-] Hnone.
      rewrite (elem_of_nil_inv (filter _ _)); [done|].
      intros m [Hsq Hm]%list_elem_of_filter. by apply (Hnone m).
  - exists []. split; [done|]. split_and!; [|done..].
    intros u. split; [by intros ?%elem_of_nil|].
    by intros (? & ? & ? & _).
Qed.

(** ** Move selection *)

Lemma fallback_move_lookup w b :
  fallback_move w b
  = legal_moves b !! (random_draw w mod length (legal_moves b)).
Proof. unfold fallback_move, random_choice. by destruct (legal_moves b). Qed.

Lemma get_ai_move_falls_back w level b :
  hashable level = true →
  primary_fails w b level →
  get_ai_move w level b = Return (fallback_move w b).
Proof.
  intros Hhash Hfails. unfold get_ai_move.
  destruct (think_time_of level) as [t|e] eqn:Htime;
    [|by destruct level].
  destruct Hfails as [Hos|Hsys|Hmissing|t' e Htime' Hraise].
  - by rewrite bool_decide_eq_false_2.
  - rewrite (bool_decide_eq_true_2 (platform_system w = "Linux")) by done.
    by rewrite andb_false_r.
  - rewrite Hmissing. by destruct (_ && _).
  - rewrite Htime in Htime'. injection Htime' as <-. rewrite Hraise.
    by destruct (_ && _), (engine_exists w).
Qed.

Lemma primary_fails_with_draw i w b level :
  primary_fails w b level → primary_fails (with_draw i w) b level.
Proof.
  intros [Hos|Hsys|Hmissing|t e Htime Hraise].
  - by apply not_windows.
  - by apply on_linux.
  - by apply engine_missing.
  - by eapply engine_raises.
Qed.

(** The draws below the length reach the elements of a list one by
    one. *)
Lemma lookup_each_draw {A B} (f : option A → B) (l : list A) :
  (λ i, f (l !! (i mod length l))) <$> seq 0 (length l)
  = (f ∘ Some) <$> l.
Proof.
  apply list_eq. intros i. rewrite !list_lookup_fmap.
  destruct (decide (i < length l)) as [Hlt|Hge].
  - rewrite lookup_seq_lt by done. simpl.
    rewrite Nat.mod_small by done.
    by destruct (lookup_lt_is_Some_2 l i Hlt) as [x ->].
  - rewrite lookup_seq_ge, lookup_ge_None_2 by lia. done.
Qed.

(** C7. For every position and every hashable difficulty (any text,
    number, boolean or null), when the primary engine gives no move
    because the host is not the Windows machine, the executable is
    missing or the engine raises, the selection returns and raises
    nothing: it returns the legal move at the index drawn below the
    number of legal moves, hence a legal move, and it returns no move
    exactly when the legal-move set is empty. The choice is uniform over
    the list: the draws 0, 1, ... below its length return its elements
    one by one. *)
Theorem get_ai_move_fallback w level b :
  hashable level = true →
  primary_fails w b level →
  get_ai_move w level b
  = Return (legal_moves b !! (random_draw w mod length (legal_moves b)))
  ∧ (get_ai_move w level b = Return None ↔ legal_moves b = [])
  ∧ (∀ m, get_ai_move w level b = Return (Some m) → m ∈ legal_moves b)
  ∧ (λ i, get_ai_move (with_draw i w) level b)
      <$> seq 0 (length (legal_moves b))
    = (Return ∘ Some) <$> legal_moves b.
Proof.
  intros Hhash Hfails.
  rewrite (get_ai_move_falls_back _ _ _ Hhash Hfails).
  rewrite fallback_move_lookup. split_and!.
  - done.
  - split.
    + intros [= Hnone]. apply lookup_ge_None in Hnone.
      destruct (legal_moves b) as [|m l]; [done|].
      pose proof (Nat.mod_upper_bound (random_draw w) (length (m :: l))).
      simpl in *. lia.
    + by intros ->.
  - intros m [= Hm]. by eapply list_elem_of_lookup_2.
  - rewrite <-(lookup_each_draw Return). apply list_fmap_ext.
    intros _ i _.
    rewrite (get_ai_move_falls_back _ _ _ Hhash
               (primary_fails_with_draw i _ _ _ Hfails)).
    by rewrite fallback_move_lookup.
Qed.

(** A difficulty that is a list or a dict, in contrast, makes the lookup
    of the think time raise before any move is chosen. *)
Lemma get_ai_move_unhashable w level b :
  hashable level = false →
  ∃ msg, get_ai_move w level b = Raise (PyExn "TypeError" msg).
Proof.
  intros Hhash. unfold get_ai_move.
  destruct level; simplify_eq/=; by eexists.
Qed.

(** X1. In a submission with an unhashable difficulty (a list or a
    dict) the TypeError of the think-time lookup escapes after the
    player's legal move has been applied: the process is left with that
    move on the board, no reply to it, and no answer. *)
Lemma player_move_unhashable_difficulty w (data : dict) s v m level :
  data !! "move" = Some v →
  truthy v = true →
  from_uci v = Return m →
  m ∈ legal_moves (board s) →
  is_game_over (push m (board s)) = false →
  data !! "difficulty" = Some level →
  hashable level = false →
  ∃ msg, player_move w data s
         = (Raise (PyExn "TypeError" msg), set_board (push m (board s)) s).
Proof.
  intros Hmove Htruthy Hparse Hlegal Hover Hlevel Hhash.
  destruct (get_ai_move_unhashable w level (push m (board s)) Hhash)
    as [msg Hraise].
  exists msg. unfold player_move.
  rewrite (dict_get_present _ _ _ _ Hmove), Htruthy, Hparse. simpl.
  rewrite (listed_is_legal _ _ Hlegal). simpl.
  by rewrite Hover, (dict_get_present _ _ _ _ Hlevel), Hraise.
Qed.

End properties.

(** * Further properties of the handlers *)

Section coverage.
Context `{!RulesEngine, !PyRuntime}.

Lemma finished_session w player difficulty s :
  board (finished w player difficulty s).2 = board s
  ∧ player_name (finished w player difficulty s).2 = player_name s.
Proof. unfold finished, log_result. by destruct (log_written w _). Qed.

(** ** What a submission changes *)

(** X2. A submission pushes at most two moves: the board after it is the
    board before, or the board with a legal move of the position, or
    that board with the move [get_ai_move] returned for it. *)
Theorem player_move_board_after w (data : dict) s :
  board (player_move w data s).2 = board s
  ∨ ∃ m, m ∈ legal_moves (board s)
         ∧ (board (player_move w data s).2 = push m (board s)
            ∨ ∃ reply,
                get_ai_move w (dict_get data "difficulty" (PStr "medium"))
                  (push m (board s)) = Return (Some reply)
                ∧ board (player_move w data s).2
                  = push reply (push m (board s))).
Proof.
  destruct (player_move_run w data s)
    as [?|e ? ?|m ? ? ?|m ? ? Hm ?|m e ? ? Hm ? ?|m ? ? Hm ? ?
        |m reply ? ? Hm ? Hreply ?|m reply ? ? Hm ? Hreply ?];
    try (by left);
    destruct (legal_pushes_listed _ _ Hm) as (m' & Hm' & Hpush);
    rewrite ?(proj1 (finished_session _ _ _ _)); simpl;
    rewrite Hpush in *; right; exists m'; (split; [done|]).
  - by left.
  - by left.
  - by left.
  - right. by exists reply.
  - right. by exists reply.
Qed.

Lemma player_move_player_name w (data : dict) s :
  player_name (player_move w data s).2 = player_name s.
Proof.
  destruct (player_move_run w data s); try done;
    by rewrite (proj2 (finished_session _ _ _ _)).
Qed.

(** X3. Only a start sets the player name: along any sequence of end and
    move requests, whatever players the move requests name, the session
    keeps its player name and the state page keeps showing it (null
    before the first start). *)
Theorem player_name_set_by_start_only s s' :
  rtc quiet_step s s' →
  player_name s' = player_name s
  ∧ get_state s' !! "player" = get_state s !! "player".
Proof.
  assert (∀ s1 : Session, get_state s1 !! "player" = Some (player_name s1))
    as Hshown by done.
  rewrite !Hshown. intros Hsteps.
  cut (player_name s' = player_name s); [by intros ->|].
  induction Hsteps as [s|s s1 s' Hstep _ IH]; [done|].
  rewrite IH. destruct Hstep as [|w data]; [done|].
  apply player_move_player_name.
Qed.

(** X4. An answer with the error or the illegal status leaves the whole
    session as it was, and carries the position string of the unchanged
    board. *)
Theorem player_move_rejected_unchanged w (data : dict) s r s' :
  player_move w data s = (Return r, s') →
  r !! "status" = Some (PStr "error")
  ∨ r !! "status" = Some (PStr "illegal") →
  s' = s ∧ r !! "fen" = Some (PStr (fen (board s))).
Proof.
  intros Hrun Hstatus.
  destruct (player_move_run w data s); simplify_eq; try done;
    unfold finished in *; simplify_eq; by destruct Hstatus.
Qed.

(** ** The results file *)

(** X5. A submission writes at most one record, and only with a
    "finished" answer: the results file after it is the file before, or
    the file before (created empty when there was none) followed by
    what was written of the result text of the finished answer: its
    bytes on the disk where the write goes through, the first of them
    where it fails after the file was opened. *)
Theorem player_move_log_only_when_finished w (data : dict) s :
  results_file (player_move w data s).2 = results_file s
  ∨ ∃ r text written,
      (player_move w data s).1 = Return r
      ∧ r !! "status" = Some (PStr "finished")
      ∧ r !! "result" = Some (PStr text)
      ∧ results_file (player_move w data s).2
        = Some (default "" (results_file s) +:+ written)
      ∧ (log_writable w = true → written = disk_text w text)
      ∧ (log_writable w = false →
         ∃ n, written = first_bytes n (disk_text w text)).
Proof.
  destruct (player_move_run w data s); try (by left);
    unfold finished, log_result, log_written;
    (destruct (log_writable w); simpl;
     [|destruct (log_partial w) as [n|]; simpl; [|by left]]);
    right; eexists _, _, _; (split_and!; [done..| |]);
    first [done | by eexists].
Qed.

Lemma step_appends s s' old :
  step s s' →
  results_file s = Some old →
  ∃ suffix, results_file s' = Some (old +:+ suffix).
Proof.
  intros Hstep Hold. destruct Hstep as [data| |w data].
  - exists "". by rewrite append_nil_r.
  - exists "". by rewrite append_nil_r.
  - destruct (player_move_run w data s);
      try (exists ""; by rewrite append_nil_r);
      unfold finished, log_result; destruct (log_written w _);
      try (exists ""; by rewrite append_nil_r);
      eexists; simpl; by rewrite Hold.
Qed.

(** X6. The results file only grows: along any sequence of start, end
    and move requests a file that exists stays and its old content is
    the beginning of the new one; what the log page shows, when the file
    can be read, is that content as a text-mode read returns it, each
    carriage return with or without a line feed as one line feed. *)
Theorem results_file_append_only s s' old :
  rtc step s s' →
  results_file s = Some old →
  ∃ suffix,
    results_file s' = Some (old +:+ suffix)
    ∧ ∀ w, log_read_error w = None →
           get_logs w s' = read_newlines (old +:+ suffix).
Proof.
  intros Hsteps. revert old.
  induction Hsteps as [s|s s1 s' Hstep _ IH]; intros old Hold.
  - exists "". rewrite append_nil_r. split; [done|].
    intros w Hread. unfold get_logs. by rewrite Hold, Hread.
  - destruct (step_appends _ _ _ Hstep Hold) as [mid Hmid].
    destruct (IH _ Hmid) as (suffix & Hfile & Hlogs).
    exists (mid +:+ suffix). rewrite <-append_assoc. split; [done|].
    intros w Hread. by apply Hlogs.
Qed.

(** X7. Whether the record can be written changes neither the answer of
    a submission nor the board and the player name after it. *)
Theorem log_failure_same_answer ok w (data : dict) s :
  (player_move (with_log_writable ok w) data s).1
  = (player_move w data s).1
  ∧ board (player_move (with_log_writable ok w) data s).2
    = board (player_move w data s).2
  ∧ player_name (player_move (with_log_writable ok w) data s).2
    = player_name (player_move w data s).2.
Proof.
  unfold player_move.
  destruct (truthy _); simpl; [|done].
  destruct (from_uci _) as [m|e]; [|done].
  destruct (is_legal _ _); simpl; [|done].
  change (get_ai_move (with_log_writable ok w))
    with (get_ai_move w).
  unfold finished, log_result. simpl.
  destruct (is_game_over (push m (board s)));
    [by destruct (log_written (with_log_writable ok w) _),
                 (log_written w _)|].
  destruct (get_ai_move _ _ _) as [[reply|]|e]; [|done..].
  destruct (is_game_over _); [|done].
  by destruct (log_written (with_log_writable ok w) _), (log_written w _).
Qed.

(** ** Move selection *)

Lemma fallback_move_legal w b :
  (fallback_move w b = None ↔ legal_moves b = [])
  ∧ ∀ reply, fallback_move w b = Some reply → reply ∈ legal_moves b.
Proof.
  rewrite fallback_move_lookup. split.
  - split; [|by intros ->].
    intros Hnone%lookup_ge_None.
    destruct (legal_moves b) as [|m l]; [done|].
    pose proof (Nat.mod_upper_bound (random_draw w) (length (m :: l))).
    simpl in *. lia.
  - intros reply Hreply. by eapply list_elem_of_lookup_2.
Qed.

(** X8. On the Windows host with the engine in place, the selection asks
    the engine with the budget of the tier, 0.1 for "easy", 1.5 for
    "hard" and 0.5 for "medium" and for every other hashable value, and
    returns what the engine answers as it is; only when the engine
    raises does the random choice step in. *)
Theorem get_ai_move_primary_budget w level b :
  os_name w = "nt" →
  platform_system w ≠ "Linux" →
  engine_exists w = true →
  hashable level = true →
  ∃ t, think_time_of level = Return t
       ∧ (level = PStr "easy" → t = FFinite 3602879701896397 (-55))
       ∧ (level = PStr "hard" → t = FFinite 3 (-1))
       ∧ (level ≠ PStr "easy" → level ≠ PStr "hard" → t = FFinite 1 (-1))
       ∧ get_ai_move w level b
         = match engine_play w b t with
           | Return reply => Return reply
           | Raise _ => Return (fallback_move w b)
           end.
Proof.
  intros Hos Hsys Hexists Hhash.
  destruct (think_time_of level) as [t|e] eqn:Htime; [|by destruct level].
  exists t. split; [done|]. split_and!.
  - intros ->. by injection Htime as <-.
  - intros ->. by injection Htime as <-.
  - intros Heasy Hhard.
    destruct level as [| | | |k| |]; simpl in Htime; try congruence.
    injection Htime as <-. unfold think_times.
    destruct (decide (k = "medium")) as [->|Hmedium]; [done|].
    rewrite !lookup_insert_ne, lookup_singleton_ne; [done|congruence..].
  - unfold get_ai_move. rewrite Htime, Hexists.
    by rewrite bool_decide_eq_true_2, bool_decide_eq_false_2.
Qed.

(** X9. The selection lets no engine error escape: it raises exactly
    when the difficulty is unhashable, and then a TypeError. *)
Theorem get_ai_move_raises_only_unhashable w level b :
  ((∃ e, get_ai_move w level b = Raise e) ↔ hashable level = false)
  ∧ ∀ e, get_ai_move w level b = Raise e →
         ∃ msg, e = PyExn "TypeError" msg.
Proof.
  assert (∀ e, get_ai_move w level b = Raise e →
               hashable level = false ∧ ∃ msg, e = PyExn "TypeError" msg)
    as Hraise.
  { intros e. unfold get_ai_move.
    destruct (think_time_of level) as [t|e'] eqn:Htime.
    - destruct (_ && _), (engine_exists w), (engine_play w b t); done.
    - intros [= <-]. destruct level; simplify_eq/=; eauto. }
  split; [split|].
  - intros [e He]. by apply Hraise in He as [? _].
  - intros Hhash.
    destruct (get_ai_move_unhashable w level b Hhash) as [msg Hmsg].
    by eexists.
  - intros e He. by apply Hraise in He as [_ ?].
Qed.

Lemma get_ai_move_sound w level b reply :
  engine_sound w →
  get_ai_move w level b = Return (Some reply) →
  reply ∈ legal_moves b.
Proof.
  intros Hsound. unfold get_ai_move.
  destruct (think_time_of level) as [t|e]; [|done].
  destruct (_ && _); [|intros [= ?]; by eapply (proj2 (fallback_move_legal _ _))].
  destruct (engine_exists w);
    [|intros [= ?]; by eapply (proj2 (fallback_move_legal _ _))].
  destruct (engine_play w b t) as [reply'|e] eqn:Hplay.
  - intros [= ->]. by eapply Hsound.
  - intros [= ?]. by eapply (proj2 (fallback_move_legal _ _)).
Qed.

(** ** The board along a session *)

(** X11. As long as the engine answers with legal moves, every position
    a session holds comes from the initial position by legal moves:
    start and end put the initial position back, and a submission pushes
    only a legal move of the position and then a legal move of the
    position after it. *)
Theorem sound_requests_play_legal_moves s s' :
  rtc sound_step s s' →
  played (board s) →
  played (board s').
Proof.
  induction 1 as [s|s s1 s' Hstep _ IH]; [done|].
  intros Hplayed. apply IH. clear IH.
  destruct Hstep as [data| |w data Hsound]; [apply played_initial..|].
  destruct (player_move_run w data s)
    as [?|e ? ?|m ? ? ?|m ? ? Hm ?|m e ? ? Hm ? ?|m ? ? Hm ? ?
        |m reply ? ? Hm ? Hreply ?|m reply ? ? Hm ? Hreply ?];
    try done;
    destruct (legal_pushes_listed _ _ Hm) as (m' & Hm' & Hpush);
    rewrite ?(proj1 (finished_session _ _ _ _)); simpl;
    rewrite Hpush in *;
    try (by apply played_push).
  - apply played_push; [by apply played_push|].
    by eapply get_ai_move_sound.
  - apply played_push; [by apply played_push|].
    by eapply get_ai_move_sound.
Qed.

(** ** The answers of a submission *)

(** X10. The position string of an answer is the position the session
    holds after the request, the one the state page shows next. The
    status is one of "error", "illegal", "finished" and "ok"; after a
    "finished" answer the state page reports the game over, after an
    "ok" answer it reports it running. *)
Theorem player_move_answer_position w (data : dict) s r s' :
  player_move w data s = (Return r, s') →
  r !! "fen" = Some (PStr (fen (board s')))
  ∧ r !! "fen" = get_state s' !! "fen"
  ∧ (r !! "status" = Some (PStr "error")
     ∨ r !! "status" = Some (PStr "illegal")
     ∨ r !! "status" = Some (PStr "finished")
     ∨ r !! "status" = Some (PStr "ok"))
  ∧ (r !! "status" = Some (PStr "finished") →
     get_state s' !! "game_over" = Some (PBool true))
  ∧ (r !! "status" = Some (PStr "ok") →
     get_state s' !! "game_over" = Some (PBool false)).
Proof.
  intros Hrun.
  assert (∀ s1 : Session, get_state s1 !! "fen" = Some (PStr (fen (board s1))))
    as Hfen by done.
  assert (∀ s1 : Session,
            get_state s1 !! "game_over"
            = Some (PBool (is_game_over (board s1)))) as Hover by done.
  rewrite Hfen, Hover.
  destruct (player_move_run w data s)
    as [?|e ? ?|m ? ? ?|m ? ? Hm Hend|m e ? ? Hm ? ?|m ? ? Hm Hend ?
        |m reply ? ? Hm ? Hreply Hend|m reply ? ? Hm ? Hreply Hend];
    unfold finished, log_result in Hrun; simplify_eq/=;
    try (split_and!; by eauto);
    try destruct (log_written _ _); simpl; rewrite Hend;
    split_and!; by eauto.
Qed.

(** X12. A move value that is not empty and that [from_uci] refuses is
    answered with the error status and the message of the parser's
    exception; the session stays as it was. *)
Theorem player_move_unparseable w (data : dict) s v e :
  data !! "move" = Some v →
  truthy v = true →
  from_uci v = Raise e →
  player_move w data s =
    (Return {[ "status" := PStr "error";
               "message" := PStr (exn_str e);
               "fen" := PStr (fen (board s)) ]}, s).
Proof.
  intros Hmove Htruthy Hparse. unfold player_move.
  by rewrite (dict_get_present _ _ _ _ Hmove), Htruthy, Hparse.
Qed.

(** X13. A request without a move field, and one whose move is any falsy
    value (null, false, zero, an empty text, list or object), is answered
    as a missing move, the session unchanged, before the parser and the
    rules are asked. *)
Theorem player_move_missing_move w (data : dict) s :
  let missing : outcome dict * Session :=
    (Return {[ "status" := PStr "error";
               "message" := PStr "Missing move";
               "fen" := PStr (fen (board s)) ]}, s) in
  (data !! "move" = None → player_move w data s = missing)
  ∧ (∀ v, data !! "move" = Some v → truthy v = false →
          player_move w data s = missing)
  ∧ (∀ v, v ∈ [PNone; PBool false; PInt 0; PFloat (FFinite 0 0);
               PStr ""; PList []; PDict []] →
          data !! "move" = Some v →
          player_move w data s = missing).
Proof.
  intros missing.
  assert (∀ v, data !! "move" = Some v → truthy v = false →
               player_move w data s = missing) as Hfalsy.
  { intros v Hmove Hv. unfold player_move.
    by rewrite (dict_get_present _ _ _ _ Hmove), Hv. }
  split_and!; [|done|].
  - intros Hmove. unfold player_move.
    by rewrite (dict_get_absent _ _ _ Hmove).
  - intros v Hv Hmove. apply (Hfalsy v Hmove).
    repeat (apply elem_of_cons in Hv as [->|Hv]; [done|]).
    by apply elem_of_nil in Hv.
Qed.

(** ** How the handlers compose *)

(** X14. A move that the valid-moves page lists for a square is applied
    when its notation is submitted, provided the notation of a legal
    move is not empty and parses back to the move: the board after the
    submission is the board with that move, or with it and a reply. *)
Theorem listed_move_is_applied w (data : dict) s square l u :
  (∀ m, m ∈ legal_moves (board s) →
        uci m ≠ "" ∧ from_uci (PStr (uci m)) = Return m) →
  valid_moves square s !! "moves" = Some (PList l) →
  PStr u ∈ l →
  data !! "move" = Some (PStr u) →
  ∃ m, m ∈ legal_moves (board s)
       ∧ uci m = u
       ∧ parse_square square = Return (from_square m)
       ∧ (board (player_move w data s).2 = push m (board s)
          ∨ ∃ reply, board (player_move w data s).2
                     = push reply (push m (board s))).
Proof.
  intros Hnotation Hlisted Hu Hmove.
  unfold valid_moves, valid_moves_try in Hlisted.
  destruct (parse_square square) as [sq|e] eqn:Hsquare;
    rewrite lookup_singleton_eq in Hlisted; injection Hlisted as <-;
    [|by apply elem_of_nil in Hu].
  apply list_elem_of_fmap in Hu as (u' & [= <-] & Hu').
  apply list_elem_of_fmap in Hu' as (m & -> & Hm).
  apply list_elem_of_filter in Hm as [<- Hm].
  destruct (Hnotation m Hm) as [Hnonempty Hparse].
  exists m. split_and!; [done..|].
  apply (player_move_legal_applied w data s (PStr (uci m)) m);
    [done| |done..].
  simpl. by apply negb_true_iff, String.eqb_neq.
Qed.

(** X15. Where the primary engine gives no move, an "ok" answer tells
    what happened on the board: the player's legal move was pushed and
    did not end the game, and either the position after it has no legal
    move, the answer names no reply and the board holds the player's
    move only, or the answer names a legal move of that position, the
    board holds both moves and the game goes on. *)
Theorem ok_answer_under_fallback w (data : dict) s r s' :
  (∀ b, primary_fails w b (dict_get data "difficulty" (PStr "medium"))) →
  player_move w data s = (Return r, s') →
  r !! "status" = Some (PStr "ok") →
  ∃ m, m ∈ legal_moves (board s)
       ∧ is_game_over (push m (board s)) = false
       ∧ ((legal_moves (push m (board s)) = []
           ∧ r !! "ai" = Some PNone
           ∧ board s' = push m (board s))
          ∨ ∃ reply,
              reply ∈ legal_moves (push m (board s))
              ∧ r !! "ai" = Some (PStr (uci reply))
              ∧ board s' = push reply (push m (board s))
              ∧ is_game_over (board s') = false).
Proof.
  intros Hfails Hrun Hstatus.
  assert (∀ b x,
            get_ai_move w (dict_get data "difficulty" (PStr "medium")) b
            = Return x → x = fallback_move w b) as Hfallback.
  { intros b x Hx.
    destruct (hashable (dict_get data "difficulty" (PStr "medium")))
      eqn:Hhash.
    - rewrite (get_ai_move_falls_back _ _ _ Hhash (Hfails b)) in Hx.
      by injection Hx.
    - destruct (get_ai_move_unhashable w _ b Hhash) as [msg Hmsg].
      congruence. }
  destruct (player_move_run w data s)
    as [?|e ? ?|m ? ? ?|m ? ? Hm Hend|m e ? ? Hm ? ?|m ? ? Hm Hend Hreply
        |m reply ? ? Hm ? Hreply Hend|m reply ? ? Hm Hgo Hreply Hend];
    unfold finished in Hrun; simplify_eq/=;
    destruct (legal_pushes_listed _ _ Hm) as (m' & Hm' & Hpush);
    rewrite Hpush in *.
  - exists m'. split_and!; [done..|]. left. split_and!; [|done..].
    apply Hfallback in Hreply.
    by apply (proj1 (fallback_move_legal w (push m' (board s)))).
  - exists m'. split_and!; [done..|]. right. exists reply.
    split_and!; [|done..].
    apply Hfallback in Hreply.
    by eapply (proj2 (fallback_move_legal _ _)).
Qed.

End coverage.

(** * The properties on the small rules engine *)

Section examples.
#[local] Existing Instances pile_engine scalar_runtime.

Lemma reachable_alice : reachable alice.
Proof. eapply reachable_step; [apply reachable_loaded | apply step_start]. Qed.

Lemma reachable_midgame : reachable midgame.
Proof. eapply reachable_step; [apply reachable_alice | apply step_move]. Qed.

Lemma reachable_drawn : reachable drawn.
Proof. eapply reachable_step; [apply reachable_midgame | apply step_move]. Qed.

(** The answers of the handlers along a game. *)

Example start_answer :
  (start_game {[ "player" := PStr "Alice" ]} loaded).1
  = {[ "status" := PStr "started"; "player" := PStr "Alice";
       "fen" := PStr "5 w 0" ]}.
Proof. reflexivity. Qed.

Example move_answered :
  player_move (linux_host 0) {[ "move" := PStr "t1" ]} alice
  = (Return {[ "status" := PStr "ok"; "ai" := PStr "t1";
               "fen" := PStr "3 w 2" ]}, midgame).
Proof. reflexivity. Qed.

Example move_unparseable :
  player_move (linux_host 0) {[ "move" := PStr "e2e4" ]} midgame
  = (Return {[ "status" := PStr "error";
               "message" := PStr "invalid uci: e2e4";
               "fen" := PStr "3 w 2" ]}, midgame).
Proof. reflexivity. Qed.

Example reply_ends_game :
  (answer (player_move (linux_host 1) {[ "move" := PStr "t1" ]} midgame).1)
    !! "result"
  = Some (PStr (log_record "2024-01-01 12:00:00.000000" "Guest" "medium"
                  "Black wins" "0-1" "0 w 4")).
Proof. reflexivity. Qed.

Example state_of_drawn :
  get_state drawn
  = {[ "fen" := PStr "1 w 4"; "turn" := PStr "white";
       "game_over" := PBool true; "player" := PStr "Alice" ]}.
Proof. reflexivity. Qed.

Example valid_moves_answer :
  valid_moves "b1" midgame = {[ "moves" := PList [PStr "t2"] ]}
  ∧ valid_moves "c1" drawn = {[ "moves" := PList [] ]}
  ∧ valid_moves "z9" midgame = {[ "moves" := PList [] ]}.
Proof. split_and!; reflexivity. Qed.

Example logs_of_sessions :
  get_logs (linux_host 0) alice = "No games yet."
  ∧ get_logs (linux_host 0) drawn
    = log_record "2024-01-01 12:00:00.000000" "Guest" "medium"
        "Draw" "1/2-1/2" "1 w 4".
Proof. split; reflexivity. Qed.

(** C1 at a concrete request: with one counter left, taking three is
    well formed and illegal. *)
Lemma player_move_illegal_witness :
  is_legal Take3 (board drawn) = false
  ∧ player_move (linux_host 0) {[ "move" := PStr "t3" ]} drawn
    = (Return {[ "status" := PStr "illegal"; "fen" := PStr "1 w 4" ]},
       drawn).
Proof.
  split; [reflexivity|].
  exact (proj1 (player_move_illegal (linux_host 0)
                  {[ "move" := PStr "t3" ]} drawn (PStr "t3") Take3
                  eq_refl eq_refl eq_refl eq_refl)).
Defined.

(** C10 at a concrete request. *)
Lemma player_move_empty_text_witness :
  player_move (linux_host 0) {[ "move" := PStr "" ]} alice
  = (Return {[ "status" := PStr "error";
               "message" := PStr "Missing move";
               "fen" := PStr "5 w 0" ]}, alice).
Proof.
  exact (player_move_empty_text (linux_host 0) {[ "move" := PStr "" ]}
           alice eq_refl).
Defined.

(** C2 as stated fails: the session [drawn] is reached by a start and
    two submissions and its position is terminal, yet the next
    submission of the legal move is applied to the board (and answered
    "finished" once more, with a second record in the log). *)
Lemma terminal_move_counterexample :
  reachable drawn
  ∧ is_game_over (board drawn) = true
  ∧ board (player_move (linux_host 0) {[ "move" := PStr "t1" ]} drawn).2
    ≠ board drawn
  ∧ (answer (player_move (linux_host 0) {[ "move" := PStr "t1" ]} drawn).1)
    !! "status" = Some (PStr "finished").
Proof.
  split_and!; [apply reachable_drawn|reflexivity| |reflexivity].
  vm_compute. discriminate.
Qed.

(** C2 as amended, at the session [won], which has no legal move. *)
Lemma player_move_no_legal_move_witness :
  legal_moves (board won) = []
  ∧ (player_move (linux_host 0) {[ "move" := PStr "t1" ]} won).2 = won.
Proof.
  split; [reflexivity|].
  exact (proj1 (player_move_no_legal_move (linux_host 0)
                  {[ "move" := PStr "t1" ]} ∅ won eq_refl)).
Defined.

(** C3 as stated fails: after Alice's start, an end leaves the player
    name "Alice", where a start without a name gives "Guest". *)
Lemma end_game_identity_counterexample :
  player_name alice = PStr "Alice"
  ∧ player_name (end_game alice).2 = PStr "Alice"
  ∧ player_name (start_game ∅ alice).2 = PStr "Guest"
  ∧ (end_game alice).2 ≠ (start_game ∅ alice).2.
Proof. split_and!; [reflexivity..|]. vm_compute. discriminate. Qed.

(** C5 as stated fails: a start with an empty name stores the empty
    name, not "Guest". *)
Lemma start_game_empty_name_counterexample :
  player_name (start_game {[ "player" := PStr "" ]} loaded).2 = PStr ""
  ∧ (start_game {[ "player" := PStr "" ]} loaded).1 !! "player"
    = Some (PStr "")
  ∧ player_name (start_game {[ "player" := PStr "" ]} loaded).2
    ≠ PStr "Guest".
Proof. split_and!; [reflexivity..|]. vm_compute. discriminate. Qed.

(** C4 as stated fails: Alice started the session, the request that ends
    the game names Bob, and the record says Bob. *)
Lemma log_record_player_counterexample :
  let data : dict := {[ "move" := PStr "t3"; "player" := PStr "Bob" ]} in
  let after := (player_move (linux_host 0) data midgame).2 in
  player_name midgame = PStr "Alice"
  ∧ player_name after = PStr "Alice"
  ∧ results_file after
    = Some (log_record "2024-01-01 12:00:00.000000" "Bob" "medium"
              "White wins" "1-0" "0 b 3")
  ∧ results_file after
    ≠ Some (log_record "2024-01-01 12:00:00.000000" "Alice" "medium"
              "White wins" "1-0" "0 b 3").
Proof.
  intros data after. split_and!; [reflexivity..|].
  vm_compute. discriminate.
Qed.

(** C4 as amended, at that request: taking the three counters left
    ends the game. *)
Lemma player_move_finished_record_witness :
  let data : dict := {[ "move" := PStr "t3"; "player" := PStr "Bob" ]} in
  let final := push Take3 (board midgame) in
  let record := log_record "2024-01-01 12:00:00.000000" "Bob" "medium"
                  "White wins" "1-0" "0 b 3" in
  ends_game (linux_host 0) (PStr "medium") (board midgame) Take3 final
  ∧ ∃ s', player_move (linux_host 0) data midgame
          = (Return {[ "status" := PStr "finished";
                       "result" := PStr record;
                       "fen" := PStr "0 b 3" ]}, s')
          ∧ board s' = final
          ∧ player_name s' = PStr "Alice"
          ∧ results_file s' = Some record.
Proof.
  intros data final record.
  assert (ends_game (linux_host 0) (PStr "medium") (board midgame) Take3
            final) as Hends by (by left).
  split; [exact Hends|].
  destruct (proj1 (player_move_finished_record (linux_host 0) data midgame)
              (PStr "t3") Take3 final eq_refl eq_refl eq_refl eq_refl Hends)
    as (s' & Hrun & Hboard & Hname & Hfile & _).
  exists s'. split_and!; [exact Hrun|exact Hboard|exact Hname|].
  exact (Hfile eq_refl).
Defined.

(** C7 as stated fails: on the Linux host, where the primary engine is
    unavailable, a difficulty that is an empty list makes the selection
    raise, at a position with three legal moves to choose from. *)
Lemma get_ai_move_unhashable_counterexample :
  primary_fails (linux_host 0) pile_start (PList [])
  ∧ legal_moves pile_start = [Take1; Take2; Take3]
  ∧ get_ai_move (linux_host 0) (PList []) pile_start
    = Raise (PyExn "TypeError" "unhashable type: 'list'")
  ∧ ¬ ∃ reply, get_ai_move (linux_host 0) (PList []) pile_start
               = Return reply.
Proof.
  split_and!; [by apply on_linux|reflexivity..|].
  intros [reply Hreply]. discriminate Hreply.
Qed.

(** C7 at a concrete request: on the Linux host the draw 1 chooses the
    second of the three legal moves. *)
Lemma get_ai_move_fallback_witness :
  primary_fails (linux_host 1) pile_start (PStr "hard")
  ∧ get_ai_move (linux_host 1) (PStr "hard") pile_start
    = Return (Some Take2).
Proof.
  assert (primary_fails (linux_host 1) pile_start (PStr "hard")) as Hfails
    by (by apply on_linux).
  split; [exact Hfails|].
  exact (proj1 (get_ai_move_fallback (linux_host 1) (PStr "hard")
                  pile_start eq_refl Hfails)).
Defined.

End examples.

(** * The further properties on the small rules engine *)

Section coverage_examples.
#[local] Existing Instances pile_engine scalar_runtime.

Lemma linux_host_sound draw : engine_sound (linux_host draw).
Proof. intros b t reply. discriminate. Qed.

Lemma removal_notation (m : removal) :
  uci m ≠ "" ∧ from_uci (PStr (uci m)) = Return m.
Proof. by destruct m. Qed.

(** X1 at a concrete request: the difficulty is an empty list. *)
Lemma player_move_unhashable_difficulty_witness :
  ∃ msg,
    player_move (linux_host 0)
      {[ "move" := PStr "t1"; "difficulty" := PList [] ]} alice
    = (Raise (PyExn "TypeError" msg),
       set_board (push Take1 (board alice)) alice).
Proof.
  assert (Take1 ∈ legal_moves (board alice)) as Hlegal.
  { apply (bool_decide_unpack _). vm_compute. exact I. }
  exact (player_move_unhashable_difficulty (linux_host 0)
           {[ "move" := PStr "t1"; "difficulty" := PList [] ]} alice
           (PStr "t1") Take1 (PList []) eq_refl eq_refl eq_refl Hlegal
           eq_refl eq_refl eq_refl).
Defined.

(** X3 along a submission that names Bob and an end. *)
Lemma player_name_set_by_start_only_witness :
  let moved :=
    (player_move (linux_host 0)
       {[ "move" := PStr "t1"; "player" := PStr "Bob" ]} alice).2 in
  get_state (end_game moved).2 !! "player" = Some (PStr "Alice")
  ∧ get_state (end_game moved).2 !! "player" = get_state alice !! "player".
Proof.
  intros moved. split; [reflexivity|].
  exact (proj2 (player_name_set_by_start_only alice (end_game moved).2
                  (rtc_l _ _ _ _
                     (quiet_move alice (linux_host 0)
                        {[ "move" := PStr "t1"; "player" := PStr "Bob" ]})
                     (rtc_once _ _ (quiet_end moved))))).
Defined.

(** X4 at the illegal request of the drawn session. *)
Lemma player_move_rejected_unchanged_witness :
  let out := player_move (linux_host 0) {[ "move" := PStr "t3" ]} drawn in
  (answer out.1) !! "status" = Some (PStr "illegal") ∧ out.2 = drawn.
Proof.
  intros out. split; [reflexivity|].
  exact (proj1 (player_move_rejected_unchanged (linux_host 0)
                  {[ "move" := PStr "t3" ]} drawn (answer out.1) out.2
                  eq_refl (or_intror eq_refl))).
Defined.

(** X6 from the drawn session, whose file holds one record, over the
    submission that adds a second one. *)
Lemma results_file_append_only_witness :
  let after :=
    (player_move (linux_host 0) {[ "move" := PStr "t1" ]} drawn).2 in
  let old := log_record "2024-01-01 12:00:00.000000" "Guest" "medium"
               "Draw" "1/2-1/2" "1 w 4" in
  results_file drawn = Some old
  ∧ ∃ suffix,
      results_file after = Some (old +:+ suffix)
      ∧ ∀ w, log_read_error w = None →
             get_logs w after = read_newlines (old +:+ suffix).
Proof.
  intros after old. split; [reflexivity|].
  exact (results_file_append_only drawn after old
           (rtc_once _ _ (step_move drawn (linux_host 0)
                            {[ "move" := PStr "t1" ]})) eq_refl).
Defined.

(** X8 at an unknown tier on the Windows machine. *)
Lemma get_ai_move_primary_budget_witness :
  get_ai_move windows_host (PStr "turbo") pile_start = Return (Some Take1)
  ∧ think_time_of (PStr "turbo") = Return (FFinite 1 (-1)).
Proof.
  assert (platform_system windows_host ≠ "Linux") as Hsys by discriminate.
  destruct (get_ai_move_primary_budget windows_host (PStr "turbo")
              pile_start eq_refl Hsys eq_refl eq_refl)
    as (t & Htime & _ & _ & Hmedium & Hmove).
  rewrite Hmove, Htime.
  rewrite (Hmedium ltac:(discriminate) ltac:(discriminate)).
  split; reflexivity.
Defined.

(** X10 at Alice's first move. *)
Lemma player_move_answer_position_witness :
  let out := player_move (linux_host 0) {[ "move" := PStr "t1" ]} alice in
  (answer out.1) !! "fen" = Some (PStr "3 w 2")
  ∧ (answer out.1) !! "fen" = Some (PStr (fen (board out.2))).
Proof.
  intros out. split; [reflexivity|].
  exact (proj1 (player_move_answer_position (linux_host 0)
                  {[ "move" := PStr "t1" ]} alice (answer out.1) out.2
                  eq_refl)).
Defined.

(** X11 along the requests that lead to the drawn session. *)
Lemma sound_requests_play_legal_moves_witness :
  rtc sound_step loaded drawn ∧ played (board drawn).
Proof.
  assert (rtc sound_step loaded drawn) as Hsteps.
  { eapply rtc_l;
      [exact (sound_start loaded {[ "player" := PStr "Alice" ]})|].
    eapply rtc_l;
      [exact (sound_move alice (linux_host 0) {[ "move" := PStr "t1" ]}
                (linux_host_sound 0))|].
    apply rtc_once.
    exact (sound_move midgame (linux_host 0) {[ "move" := PStr "t1" ]}
             (linux_host_sound 0)). }
  split; [exact Hsteps|].
  exact (sound_requests_play_legal_moves loaded drawn Hsteps played_initial).
Defined.

(** X12 at a chess move, which the small engine cannot parse. *)
Lemma player_move_unparseable_witness :
  player_move (linux_host 0) {[ "move" := PStr "e2e4" ]} midgame
  = (Return {[ "status" := PStr "error";
               "message" := PStr "invalid uci: e2e4";
               "fen" := PStr "3 w 2" ]}, midgame).
Proof.
  exact (player_move_unparseable (linux_host 0)
           {[ "move" := PStr "e2e4" ]} midgame (PStr "e2e4")
           (PyExn "InvalidMoveError" "invalid uci: e2e4")
           eq_refl eq_refl eq_refl).
Defined.

(** X14 at the move listed for the square b1 in the middle of the
    game. *)
Lemma listed_move_is_applied_witness :
  valid_moves "b1" midgame !! "moves" = Some (PList [PStr "t2"])
  ∧ ∃ m, m ∈ legal_moves (board midgame)
         ∧ uci m = "t2"
         ∧ parse_square "b1" = Return (from_square m)
         ∧ (board (player_move (linux_host 0)
                     {[ "move" := PStr "t2" ]} midgame).2
            = push m (board midgame)
            ∨ ∃ reply,
                board (player_move (linux_host 0)
                         {[ "move" := PStr "t2" ]} midgame).2
                = push reply (push m (board midgame))).
Proof.
  split; [reflexivity|].
  assert (PStr "t2" ∈ [PStr "t2"]) as Hlisted by apply list_elem_of_here.
  exact (listed_move_is_applied (linux_host 0) {[ "move" := PStr "t2" ]}
           midgame "b1" [PStr "t2"] "t2"
           (λ m _, removal_notation m) eq_refl Hlisted eq_refl).
Defined.

(** X15 at Alice's first move on the Linux host. *)
Lemma ok_answer_under_fallback_witness :
  let out := player_move (linux_host 0) {[ "move" := PStr "t1" ]} alice in
  (answer out.1) !! "status" = Some (PStr "ok")
  ∧ ∃ m, m ∈ legal_moves (board alice)
         ∧ is_game_over (push m (board alice)) = false
         ∧ ((legal_moves (push m (board alice)) = []
             ∧ (answer out.1) !! "ai" = Some PNone
             ∧ board out.2 = push m (board alice))
            ∨ ∃ reply,
                reply ∈ legal_moves (push m (board alice))
                ∧ (answer out.1) !! "ai" = Some (PStr (uci reply))
                ∧ board out.2 = push reply (push m (board alice))
                ∧ is_game_over (board out.2) = false).
Proof.
  intros out. split; [reflexivity|].
  exact (ok_answer_under_fallback (linux_host 0)
           {[ "move" := PStr "t1" ]} alice (answer out.1) out.2
           (λ b, on_linux (linux_host 0) b _ eq_refl) eq_refl eq_refl).
Defined.

End coverage_examples.
